(** * github-script-py: the workflow context of [src/context.py]

    A shallow embedding of the module [context.py]: the dotted-access
    mapping [DotDict], the event record [Event] and the invocation
    [Context] with its constructor and its two computed properties
    [repo] and [issue].

    The model is as follows.
    - Python objects are the inductive [value]: the JSON data that
      [json.load] returns, and function objects, which only matter to
      [callable]; a [dict] is a [gmap string value].
    - A raised exception is the [Raise] branch of [result]; statements
      in sequence are the bind of that error monad.
    - The process environment [os.environ] is a [gmap string string], the
      file system a [gmap string fs_node]; both are read only.
    - A global name is resolved in the module namespace when the
      expression naming it is evaluated ([load_global]). *)

From Stdlib Require Import ZArith Ascii.
From stdpp Require Import gmap strings list fin_maps.

Open Scope string_scope.

(** ** Values and exceptions *)

#[warnings="-register-all"]
Inductive value :=
| VNone
| VBool (b : bool)
| VInt (n : Z)
| VFloat (literal : string)
| VStr (s : string)
| VList (l : list value)
| VDict (d : gmap string value)
| VFunction (qualname : string).

(** [ValueError] is raised twice in [Context.repo]: by the interpreter when
    the target list [owner, repo] is unpacked from a list of another
    length, and by the explicit [raise ValueError(...)]. *)
Inductive value_error :=
| Unpack (expected got : nat)
| Message (msg : string).

Inductive exn :=
| NameError (name : string)
| AttributeError (attr : string)
| KeyError (key : string)
| TypeError
| ValueError (why : value_error)
| JSONDecodeError
| FileNotFoundError
| IsADirectoryError.

Inductive result (A : Type) :=
| Ok (a : A)
| Raise (e : exn).
Arguments Ok {A} a.
Arguments Raise {A} e.

#[global] Instance result_ret : MRet result := fun A a => Ok a.
#[global] Instance result_bind : MBind result := fun A B f m =>
  match m with
  | Ok a => f a
  | Raise e => Raise e
  end.

Definition raises {A} (m : result A) : Prop := exists e, m = Raise e.

(** ** Built-in operations on values *)

(** [isinstance(v, dict)] *)
Definition isinstance_dict (v : value) : bool :=
  match v with
  | VDict _ => true
  | _ => false
  end.

(** Truth value of an [Optional[str]] as tested by [if s:]. *)
Definition truthy (s : option string) : bool :=
  match s with
  | Some (String _ _) => true
  | _ => false
  end.

(** [d.get(key)] and [d.get(key, default)] of the built-in [dict]. *)
Definition dict_get (d : gmap string value) (key : string) (dflt : value) : value :=
  default dflt (d !! key).

(** [v.get(key, default)] for an arbitrary object [v]: only a [dict] has
    the method. *)
Definition py_get (v : value) (key : string) (dflt : value) : result value :=
  match v with
  | VDict d => Ok (dict_get d key dflt)
  | _ => Raise (AttributeError "get")
  end.

(** [v[key]] with a string subscript. *)
Definition py_getitem (v : value) (key : string) : result value :=
  match v with
  | VDict d =>
      match d !! key with
      | Some x => Ok x
      | None => Raise (KeyError key)
      end
  | _ => Raise TypeError
  end.

(** [needle in hay] on strings: substring test. *)
Fixpoint substring_of (needle hay : string) : bool :=
  String.prefix needle hay ||
  match hay with
  | EmptyString => false
  | String _ hay' => substring_of needle hay'
  end.

Definition is_str (key : string) (v : value) : bool :=
  match v with
  | VStr s => bool_decide (s = key)
  | _ => false
  end.

(** [key in v] for a string [key]. *)
Definition py_in (key : string) (v : value) : result bool :=
  match v with
  | VDict d => Ok (bool_decide (is_Some (d !! key)))
  | VList l => Ok (existsb (is_str key) l)
  | VStr s => Ok (substring_of key s)
  | _ => Raise TypeError
  end.

(** [s.split(sep)] for a one-character separator. *)
Fixpoint split (sep : ascii) (s : string) : list string :=
  match s with
  | EmptyString => [EmptyString]
  | String c s' =>
      if bool_decide (c = sep) then EmptyString :: split sep s'
      else match split sep s' with
           | hd :: tl => String c hd :: tl
           | [] => [String c EmptyString]
           end
  end.

(** The target list [a, b = l]. *)
Definition unpack2 (l : list string) : result (string * string) :=
  match l with
  | [a; b] => Ok (a, b)
  | _ => Raise (ValueError (Unpack 2 (length l)))
  end.

(** [s.upper()] on ASCII letters; other characters are kept. *)
Definition upper_ascii (c : ascii) : ascii :=
  let n := nat_of_ascii c in
  if (97 <=? n)%nat && (n <=? 122)%nat then ascii_of_nat (n - 32) else c.

Fixpoint upper (s : string) : string :=
  match s with
  | EmptyString => EmptyString
  | String c s' => String (upper_ascii c) (upper s')
  end.

(** [s.startswith(p)] *)
Definition startswith (p s : string) : bool := String.prefix p s.

Fixpoint count_char (c : ascii) (s : string) : nat :=
  match s with
  | EmptyString => 0
  | String a s' => (if bool_decide (a = c) then 1 else 0) + count_char c s'
  end.

(** ** The module namespace *)

(** The names bound by the top-level statements of the module, in order:
    the two imports and the three class statements. *)
Definition module_globals : list string :=
  ["os"; "json"; "DotDict"; "Event"; "Context"].

(** Evaluation of a global name: [NameError] when the module binds no such
    name (none of the names used is a built-in). *)
Definition load_global (name : string) : result unit :=
  if bool_decide (name ∈ module_globals) then Ok () else Raise (NameError name).

(** ** class DotDict(dict) *)

Module DotDict.

(** [__getattr__], the hook Python calls for an attribute name that the
    [dict] type does not define itself. In [NestedDict(value)] the name
    is evaluated before the call; a wrapper class adds behaviour and no
    data, so a wrapped mapping is the mapping. *)
Definition __getattr__ (self : gmap string value) (attr : string) : result value :=
  let value := dict_get self attr VNone in
  if isinstance_dict value then
    _ ← load_global "NestedDict"; Ok value
  else Ok value.

Definition __setattr__ (self : gmap string value) (key : string) (val : value)
  : gmap string value :=
  <[key := val]> self.

Definition __delattr__ (self : gmap string value) (item : string)
  : gmap string value :=
  if bool_decide (is_Some (self !! item)) then delete item self else self.

(** The chained read [self.a.b]: the second read is the same hook on the
    object the first one returned. *)
Definition getattr2 (self : gmap string value) (a b : string) : result value :=
  inner ← __getattr__ self a;
  match inner with
  | VDict d => __getattr__ d b
  | _ => Raise (AttributeError b)
  end.

(** A history of attribute writes and deletions. *)
Inductive op :=
| SetAttr (key : string) (val : value)
| DelAttr (item : string).

Definition step (self : gmap string value) (o : op) : gmap string value :=
  match o with
  | SetAttr key val => __setattr__ self key val
  | DelAttr item => __delattr__ self item
  end.

Definition run (ops : list op) (self : gmap string value) : gmap string value :=
  foldl step self ops.


End DotDict.

(** ** class Event(NestedDict) *)

Module Event.

(** A call of [Event] with keyword arguments. The class body only binds
    three defaults; an instance is built by what the class inherits from
    the base named in the class statement, [NestedDict], and that name is
    bound nowhere in the module. *)
Definition new (kwargs : gmap string value) : result value :=
  _ ← load_global "NestedDict"; Ok (VDict kwargs).

End Event.

(** ** The world a [Context] reads *)

Inductive fs_node :=
| RegularFile (text : string)
| Directory.

(** [os.getenv(name)] *)
Definition os_getenv (environ : gmap string string) (name : string) : option string :=
  environ !! name.

(** [os.getenv(name, default)] *)
Definition os_getenv_default (environ : gmap string string) (name : string)
  (dflt : value) : value :=
  match environ !! name with
  | Some s => VStr s
  | None => dflt
  end.

(** [os.path.exists(path)]; no file has the empty path. *)
Definition os_path_exists (fs : gmap string fs_node) (path : string) : bool :=
  match path with
  | EmptyString => false
  | _ => bool_decide (is_Some (fs !! path))
  end.

(** [open(path, 'r', encoding='utf-8')] followed by reading the whole
    text, as [json.load] does. *)
Definition read_text (fs : gmap string fs_node) (path : string) : result string :=
  match fs !! path with
  | Some (RegularFile text) => Ok text
  | Some Directory => Raise IsADirectoryError
  | None => Raise FileNotFoundError
  end.

Fixpoint foldM {A B} (f : A -> B -> result A) (a : A) (l : list B) : result A :=
  match l with
  | [] => Ok a
  | b :: l' => a' ← f a b; foldM f a' l'
  end.

(** ** class Context *)

Module Context.

(** The data attributes bound by the class body, with their defaults, in
    source order. *)
Definition class_attributes : list (string * value) :=
  [ ("payload", VDict ∅);
    ("event_name", VStr "");
    ("sha", VStr "");
    ("ref", VStr "");
    ("workflow", VStr "");
    ("action", VStr "");
    ("actor", VStr "");
    ("job", VStr "");
    ("run_attempt", VInt 0);
    ("run_number", VInt 0);
    ("run_id", VInt 0);
    ("api_url", VStr "https://api.github.com");
    ("server_url", VStr "https://github.com");
    ("graphql_url", VStr "https://api.github.com/graphql") ].

Definition class_default (name : string) : option value :=
  (list_to_map class_attributes : gmap string value) !! name.

(** The read [self.payload]: [payload] is a plain attribute, found in the
    instance [__dict__], else in the class. *)
Definition payload (self : gmap string value) : value :=
  match self !! "payload" with
  | Some v => v
  | None => default VNone (class_default "payload")
  end.

Definition repo_error : exn :=
  ValueError (Message
    "context.repo requires a GITHUB_REPOSITORY environment variable like 'owner/repo'").

(** The property [repo]. *)
Definition repo (environ : gmap string string) (self : gmap string value)
  : result value :=
  let repository := os_getenv environ "GITHUB_REPOSITORY" in
  if truthy repository then
    '(owner, repo) ← unpack2 (split "/" (default "" repository));
    Ok (VDict (<["owner" := VStr owner]> (<["repo" := VStr repo]> ∅)))
  else
    has ← py_in "repository" (payload self);
    if has : bool then
      r ← py_getitem (payload self) "repository";
      o ← py_getitem r "owner";
      login ← py_getitem o "login";
      r' ← py_getitem (payload self) "repository";
      name ← py_getitem r' "name";
      Ok (VDict (<["owner" := login]> (<["repo" := name]> ∅)))
    else Raise repo_error.

(** The expression bound to [number] in the property [issue]. *)
Definition issue_number (payload : value) : result value :=
  inner ← py_get payload "pull_request" payload;
  container ← py_get payload "issue" inner;
  py_get container "number" VNone.

(** The property [issue]. *)
Definition issue (environ : gmap string string) (self : gmap string value)
  : result value :=
  number ← issue_number (payload self);
  r ← repo environ self;
  match r with
  | VDict kwargs => Event.new (<["number" := number]> kwargs)
  | _ => Raise TypeError
  end.

(** What the class body binds besides the data attributes. *)
Inductive member :=
| Attribute (dflt : value)
| Function
| StaticMethod
| Property (fget : gmap string string -> gmap string value -> result value).

Definition class_dict : list (string * member) :=
  map (fun '(name, dflt) => (name, Attribute dflt)) class_attributes ++
  [ ("__init__", Function);
    ("_get_payload", StaticMethod);
    ("issue", Property issue);
    ("repo", Property repo) ].

Definition class_lookup (name : string) : option member :=
  (list_to_map class_dict : gmap string member) !! name.

(** [getattr(self, name)]: a property of the class comes first, then the
    instance [__dict__], then the other class members. *)
Definition getattr (environ : gmap string string) (self : gmap string value)
  (name : string) : result value :=
  match class_lookup name with
  | Some (Property fget) => fget environ self
  | m =>
      match self !! name with
      | Some v => Ok v
      | None =>
          match m with
          | Some (Attribute dflt) => Ok dflt
          | Some Function => Ok (VFunction ("Context." ++ name))
          | Some StaticMethod => Ok (VFunction ("Context." ++ name))
          | _ => Raise (AttributeError name)
          end
      end
  end.

(** [setattr(self, name, v)]: a property without setter refuses the
    write, any other name goes to the instance [__dict__]. *)
Definition setattr (self : gmap string value) (name : string) (v : value)
  : result (gmap string value) :=
  match class_lookup name with
  | Some (Property _) => Raise (AttributeError name)
  | _ => Ok (<[name := v]> self)
  end.

(** [callable(v)] *)
Definition callable (v : value) : bool :=
  match v with
  | VFunction _ => true
  | _ => false
  end.

(** The body of the [for] loop of [__init__]. *)
Definition init_field (environ : gmap string string) (self : gmap string value)
  (field : string) : result (gmap string value) :=
  if negb (startswith "_" field) then
    attr ← getattr environ self field;
    if negb (callable attr) then
      let env_var := "GITHUB_" ++ upper field in
      default_value ← getattr environ self field;
      setattr self field (os_getenv_default environ env_var default_value)
    else Ok self
  else Ok self.

Section Json.

(** [json.loads], from the standard library: [None] when the text is not
    a JSON document. *)
Variable json_loads : string -> option value.

Definition json_load (text : string) : result value :=
  match json_loads text with
  | Some v => Ok v
  | None => Raise JSONDecodeError
  end.

(** The static method [_get_payload]. *)
Definition _get_payload (environ : gmap string string) (fs : gmap string fs_node)
  : result value :=
  let event_path := os_getenv environ "GITHUB_EVENT_PATH" in
  if truthy event_path && os_path_exists fs (default "" event_path) then
    text ← read_text fs (default "" event_path);
    json_load text
  else Ok (VDict ∅).

(** The call [self._get_payload()]. *)
Definition call_get_payload (environ : gmap string string) (fs : gmap string fs_node)
  (self : gmap string value) : result value :=
  f ← getattr environ self "_get_payload";
  match f with
  | VFunction "Context._get_payload" => _get_payload environ fs
  | _ => Raise TypeError
  end.

(** [__init__]: the loop runs over the keys of the instance [__dict__]. *)
Definition __init__ (environ : gmap string string) (fs : gmap string fs_node)
  (self : gmap string value) : result (gmap string value) :=
  self' ← foldM (init_field environ) self (map_to_list self).*1;
  p ← call_get_payload environ fs self';
  setattr self' "payload" p.

(** The call [Context()]: a new object has an empty [__dict__]; the class
    attributes stay in the class. *)
Definition new (environ : gmap string string) (fs : gmap string fs_node)
  : result (gmap string value) :=
  __init__ environ fs ∅.

End Json.

End Context.

(** ** The statements of the specification *)

Module Spec.

(** Availability of a dotted path [payload.a.b] in a JSON document. *)
Fixpoint lookup_path (path : list string) (v : value) : option value :=
  match path with
  | [] => Some v
  | key :: path' =>
      match v with
      | VDict d => d !! key ≫= lookup_path path'
      | _ => None
      end
  end.

(** "taken from payload.issue.number, falling back to
    payload.pull_request.number, falling back to payload.number" *)
Definition issue_number (payload : value) : option value :=
  match lookup_path ["issue"; "number"] payload with
  | Some n => Some n
  | None =>
      match lookup_path ["pull_request"; "number"] payload with
      | Some n => Some n
      | None => lookup_path ["number"] payload
      end
  end.


(** An "OWNER/NAME-formatted" string. *)
Definition owner_name (s owner name : string) : Prop :=
  s = owner ++ "/" ++ name /\ count_char "/" owner = 0 /\ count_char "/" name = 0.

Definition repo_dict (owner name : value) : value :=
  VDict (<["owner" := owner]> (<["repo" := name]> ∅)).

(** The three-way rule for [repo]: the environment variable when it is
    OWNER/NAME-formatted, else the payload when it has both entries, else
    the configuration error. *)
Definition repo_rule (environ : gmap string string) (payload : value)
  (r : result value) : Prop :=
  (forall s owner name,
      environ !! "GITHUB_REPOSITORY" = Some s -> owner_name s owner name ->
      r = Ok (repo_dict (VStr owner) (VStr name))) /\
  ((forall s owner name,
      environ !! "GITHUB_REPOSITORY" = Some s -> ~ owner_name s owner name) ->
   (forall login name,
      lookup_path ["repository"; "owner"; "login"] payload = Some login ->
      lookup_path ["repository"; "name"] payload = Some name ->
      r = Ok (repo_dict login name)) /\
   (lookup_path ["repository"; "owner"; "login"] payload = None \/
    lookup_path ["repository"; "name"] payload = None ->
    r = Raise Context.repo_error)).


(** "the result of get-attribute(k) on a mapping where k is absent differs
    from its result on a mapping where k is stored with value null" *)
Definition absence_rule (k : string) (absent null : gmap string value) : Prop :=
  absent !! k = None -> null !! k = Some VNone ->
  DotDict.__getattr__ absent k <> DotDict.__getattr__ null k.

End Spec.

(** A stand-in for [json.loads] that knows three documents. *)
Definition json_loads_sample (text : string) : option value :=
  if bool_decide (text = "{}") then Some (VDict ∅)
  else if bool_decide (text = "[]") then Some (VList [])
  else if bool_decide (text = "null") then Some VNone
  else None.

(** Sample worlds. *)
Module Sample.

Definition octocat_payload : value :=
  VDict {["repository" :=
            VDict (<["owner" := VDict {["login" := VStr "octocat"]}]>
                     {["name" := VStr "Hello-World"]})]}.



(** A payload whose [issue] entry is JSON [null]. *)
Definition null_issue : value := VDict {["issue" := VNone]}.


(** The instance [__dict__] that [__init__] leaves for a payload. *)
Definition instance (payload : value) : gmap string value :=
  {["payload" := payload]}.

Definition event_file : gmap string fs_node :=
  <["/event.json" := RegularFile "[]"]> {["/broken.json" := RegularFile "{"]}.

End Sample.

(** Notions read off the code, used to state how its operations compose. *)
Module Behaviour.

(** An operation of a history that writes or deletes [key]. *)
Definition touches (key : string) (o : DotDict.op) : Prop :=
  match o with
  | DotDict.SetAttr k _ => k = key
  | DotDict.DelAttr k => k = key
  end.


(** A JSON scalar that is not a string. *)
Definition is_scalar (v : value) : bool :=
  match v with
  | VNone | VBool _ | VInt _ | VFloat _ => true
  | _ => false
  end.

End Behaviour.

(** * Properties *)

(** ** Strings *)

Lemma split_length sep s : length (split sep s) = S (count_char sep s).
Proof.
  induction s as [|c s IH]; simpl; [done|].
  case_bool_decide; simpl; [by rewrite IH|].
  destruct (split sep s) as [|hd tl]; simpl in *; lia.
Qed.

Lemma split_no_separator sep s : count_char sep s = 0 -> split sep s = [s].
Proof.
  induction s as [|c s IH]; simpl; [done|].
  case_bool_decide; [done|]. simpl. intros Hc. by rewrite IH.
Qed.

Lemma split_at_separator sep a b :
  count_char sep a = 0 -> split sep (a ++ String sep b) = a :: split sep b.
Proof.
  induction a as [|c a IH]; simpl.
  - intros _. by rewrite bool_decide_eq_true_2.
  - case_bool_decide; [done|]. simpl. intros Hc. by rewrite IH.
Qed.

Lemma split_owner_name s owner name :
  Spec.owner_name s owner name -> split "/" s = [owner; name].
Proof.
  intros (-> & Ho & Hn).
  change (owner ++ "/" ++ name) with (owner ++ String "/" name).
  by rewrite split_at_separator, (split_no_separator _ name).
Qed.

Lemma unpack2_length l :
  length l <> 2 -> unpack2 l = Raise (ValueError (Unpack 2 (length l))).
Proof. destruct l as [|a [|b [|c l]]]; simpl; intros; done. Qed.

Lemma owner_name_nonempty s owner name :
  Spec.owner_name s owner name -> truthy (Some s) = true.
Proof. intros (-> & _). by destruct owner. Qed.

(** ** Name resolution *)

Lemma NestedDict_unbound : load_global "NestedDict" = Raise (NameError "NestedDict").
Proof. reflexivity. Qed.

(** ** The dotted-access mapping *)

Section DotDictFacts.

Import DotDict.

Implicit Types (self : gmap string value) (key attr : string).

Lemma getattr_plain self attr v :
  self !! attr = Some v -> isinstance_dict v = false -> __getattr__ self attr = Ok v.
Proof. unfold __getattr__, dict_get. intros -> Hv. simpl. by rewrite Hv. Qed.

Lemma getattr_nested self attr d :
  self !! attr = Some (VDict d) ->
  __getattr__ self attr = Raise (NameError "NestedDict").
Proof. unfold __getattr__, dict_get. by intros ->. Qed.

Lemma setattr_lookup self key v : __setattr__ self key v !! key = Some v.
Proof. apply lookup_insert_eq. Qed.



(** C2, on the code: for every key [x] and every mapping, after
    [self.x = {"y": 1}] the chained read [self.x.y] does not return [1]:
    the first read finds a nested mapping, evaluates the name
    [NestedDict], which the module never binds, and raises [NameError]. *)
Theorem nested_read_raises_NameError self x :
  getattr2 (__setattr__ self x (VDict {["y" := VInt 1]})) x "y"
  = Raise (NameError "NestedDict").
Proof.
  unfold getattr2.
  by rewrite (getattr_nested _ x {["y" := VInt 1]}) by apply setattr_lookup.
Qed.



(** C8 as stated fails: for the key ["k"], the read on the empty mapping
    and the read on the mapping that stores [None] under ["k"] return the
    same object. *)
Lemma absence_rule_counterexample :
  ~ Spec.absence_rule "k" ∅ {["k" := VNone]}.
Proof. intros H. by apply H. Qed.

(** C8, amended: the absence marker is [None] itself; for every key the
    read on a mapping without the key and the read on a mapping that binds
    the key to [None] both return [None]. *)
Theorem absence_marker_is_None k (absent null : gmap string value) :
  absent !! k = None -> null !! k = Some VNone ->
  __getattr__ absent k = Ok VNone /\ __getattr__ null k = Ok VNone /\
  __getattr__ absent k = __getattr__ null k.
Proof.
  intros Ha Hn.
  assert (__getattr__ absent k = Ok VNone) as E1
    by (unfold __getattr__, dict_get; by rewrite Ha).
  assert (__getattr__ null k = Ok VNone) as E2 by by apply getattr_plain.
  by rewrite E1, E2.
Qed.

Lemma absence_marker_is_None_witness :
  __getattr__ ∅ "k" = Ok VNone /\ __getattr__ {["k" := VNone]} "k" = Ok VNone /\
  __getattr__ ∅ "k" = __getattr__ {["k" := VNone]} "k".
Proof. apply (absence_marker_is_None "k" ∅ {["k" := VNone]}); reflexivity. Defined.

End DotDictFacts.

(** ** Construction of a Context *)

Lemma bind_Ok {A B} (a : A) (f : A -> result B) : (Ok a ≫= f) = f a.
Proof. reflexivity. Qed.

Lemma class_attribute_lookup field dflt :
  (field, dflt) ∈ Context.class_attributes ->
  Context.class_lookup field = Some (Context.Attribute dflt) /\
  startswith "_" field = false /\ Context.callable dflt = false.
Proof.
  unfold Context.class_attributes. intros Hin.
  repeat (apply elem_of_cons in Hin as [[= -> ->]|Hin]; [by vm_compute|]).
  by apply elem_of_nil in Hin.
Qed.

Lemma getattr_attribute environ (self : gmap string value) name dflt :
  Context.class_lookup name = Some (Context.Attribute dflt) ->
  Context.getattr environ self name = Ok (default dflt (self !! name)).
Proof. unfold Context.getattr. intros ->. by destruct (self !! name). Qed.

Lemma setattr_attribute (self : gmap string value) name dflt v :
  Context.class_lookup name = Some (Context.Attribute dflt) ->
  Context.setattr self name v = Ok (<[name := v]> self).
Proof. unfold Context.setattr. by intros ->. Qed.

(** The loop body does read the environment for a name it is given: on a
    declared field it stores the string of the variable. *)
Lemma init_field_reads_environ environ (self : gmap string value) field dflt v :
  (field, dflt) ∈ Context.class_attributes ->
  environ !! ("GITHUB_" ++ upper field) = Some v ->
  (forall x, self !! field = Some x -> Context.callable x = false) ->
  Context.init_field environ self field = Ok (<[field := VStr v]> self).
Proof.
  intros (Hc & Hs & Hd)%class_attribute_lookup Hv Hself.
  unfold Context.init_field. rewrite Hs. cbn [negb].
  rewrite (getattr_attribute _ _ _ _ Hc), bind_Ok.
  assert (Context.callable (default dflt (self !! field)) = false) as ->.
  { destruct (self !! field) as [x|] eqn:E; [by apply Hself|done]. }
  cbn [negb]. rewrite bind_Ok. unfold os_getenv_default. rewrite Hv.
  by apply setattr_attribute with dflt.
Qed.

Section Construction.

Variable json_loads : string -> option value.

Implicit Types (environ : gmap string string) (fs : gmap string fs_node)
  (self : gmap string value).

Lemma call_get_payload_fresh environ fs :
  Context.call_get_payload json_loads environ fs ∅ =
  Context._get_payload json_loads environ fs.
Proof. reflexivity. Qed.

(** The loop of [__init__] has nothing to run over: construction is the
    payload load followed by one write. *)
Lemma new_unfold environ fs :
  Context.new json_loads environ fs =
  p ← Context._get_payload json_loads environ fs; Ok (Sample.instance p).
Proof.
  unfold Context.new, Context.__init__. rewrite map_to_list_empty.
  change (foldM (Context.init_field environ) ∅ ([].*1))
    with (Ok (∅ : gmap string value)).
  rewrite bind_Ok, call_get_payload_fresh.
  destruct (Context._get_payload json_loads environ fs); reflexivity.
Qed.

Lemma get_payload_no_file environ fs :
  environ !! "GITHUB_EVENT_PATH" = None \/
  (exists path, environ !! "GITHUB_EVENT_PATH" = Some path /\ fs !! path = None) ->
  Context._get_payload json_loads environ fs = Ok (VDict ∅).
Proof.
  unfold Context._get_payload, os_getenv. intros [->|(path & -> & Hp)]; [done|].
  destruct path as [|c path]; [done|].
  cbn [truthy default from_option id os_path_exists andb].
  rewrite bool_decide_eq_false_2; [done|]. rewrite Hp. by intros [? ?].
Qed.

Lemma get_payload_file environ fs path text :
  environ !! "GITHUB_EVENT_PATH" = Some path -> path <> "" ->
  fs !! path = Some (RegularFile text) ->
  Context._get_payload json_loads environ fs = Context.json_load json_loads text.
Proof.
  unfold Context._get_payload, os_getenv, read_text. intros -> Hne Hp.
  destruct path as [|c path]; [done|].
  cbn [truthy default from_option id os_path_exists andb].
  rewrite bool_decide_eq_true_2 by (rewrite Hp; eauto). by rewrite Hp.
Qed.

Lemma getattr_payload environ p :
  Context.getattr environ (Sample.instance p) "payload" = Ok p.
Proof. reflexivity. Qed.



(** C1, on the code: with [GITHUB_RUN_ID=42] in the environment, the
    variable that belongs to the field [run_id], construction succeeds and
    the field [run_id] is the class default [0], not the string ["42"]:
    the loop of [__init__] runs over the instance [__dict__], which is
    empty when [__init__] starts. *)
Theorem run_id_not_read_from_environ fs :
  let environ : gmap string string := {["GITHUB_RUN_ID" := "42"]} in
  environ !! ("GITHUB_" ++ upper "run_id") = Some "42" /\
  exists self, Context.new json_loads environ fs = Ok self /\
               Context.getattr environ self "run_id" = Ok (VInt 0).
Proof.
  intros environ. split; [reflexivity|].
  rewrite new_unfold, get_payload_no_file by (left; reflexivity).
  eexists. split; reflexivity.
Qed.


(** C5: without [GITHUB_EVENT_PATH], or when it names a path that does not
    exist, the payload of the constructed instance is the empty object;
    when it names a file with a JSON document, the payload is the parsed
    document; when the file holds no JSON document, construction raises
    the decoder's error. *)
Theorem payload_loading environ fs :
  (environ !! "GITHUB_EVENT_PATH" = None \/
   (exists path, environ !! "GITHUB_EVENT_PATH" = Some path /\ fs !! path = None) ->
   exists self, Context.new json_loads environ fs = Ok self /\
                Context.getattr environ self "payload" = Ok (VDict ∅)) /\
  (forall path text,
     environ !! "GITHUB_EVENT_PATH" = Some path -> path <> "" ->
     fs !! path = Some (RegularFile text) ->
     match json_loads text with
     | Some document =>
         exists self, Context.new json_loads environ fs = Ok self /\
                      Context.getattr environ self "payload" = Ok document
     | None => Context.new json_loads environ fs = Raise JSONDecodeError
     end).
Proof.
  split.
  - intros Hfile. rewrite new_unfold, get_payload_no_file by done.
    eexists. split; reflexivity.
  - intros path text He Hne Hf.
    rewrite new_unfold, (get_payload_file _ _ _ _ He Hne Hf).
    unfold Context.json_load. destruct (json_loads text) as [document|].
    + eexists. split; reflexivity.
    + reflexivity.
Qed.

End Construction.


Lemma payload_loading_witness :
  let environ : gmap string string := {["GITHUB_EVENT_PATH" := "/event.json"]} in
  (exists self, Context.new json_loads_sample ∅ Sample.event_file = Ok self /\
                Context.getattr ∅ self "payload" = Ok (VDict ∅)) /\
  (exists self, Context.new json_loads_sample environ Sample.event_file = Ok self /\
                Context.getattr environ self "payload" = Ok (VList [])) /\
  Context.new json_loads_sample {["GITHUB_EVENT_PATH" := "/broken.json"]}
    Sample.event_file = Raise JSONDecodeError.
Proof.
  intros environ. split; [|split].
  - apply (payload_loading json_loads_sample ∅ Sample.event_file).
    left. reflexivity.
  - apply (proj2 (payload_loading json_loads_sample environ Sample.event_file)
             "/event.json" "[]"); [reflexivity|discriminate|reflexivity].
  - apply (proj2 (payload_loading json_loads_sample
                    {["GITHUB_EVENT_PATH" := "/broken.json"]} Sample.event_file)
             "/broken.json" "{"); [reflexivity|discriminate|reflexivity].
Defined.

(** ** The property repo *)

Section Repo.

Implicit Types (environ : gmap string string) (self : gmap string value)
  (d : gmap string value).

Lemma bind_Raise {A B} e (f : A -> result B) : (Raise e ≫= f) = Raise e.
Proof. reflexivity. Qed.

Lemma py_get_dict d key dflt : py_get (VDict d) key dflt = Ok (dict_get d key dflt).
Proof. reflexivity. Qed.

Lemma py_getitem_dict d key v : d !! key = Some v -> py_getitem (VDict d) key = Ok v.
Proof. unfold py_getitem. by intros ->. Qed.

Lemma py_getitem_raise v key e :
  py_getitem v key = Raise e -> e = TypeError \/ e = KeyError key.
Proof.
  destruct v; unfold py_getitem; try (intros [= <-]; by left).
  destruct (d !! key); [done|]. intros [= <-]. by right.
Qed.

Lemma unpack2_raise l e : unpack2 l = Raise e -> e = ValueError (Unpack 2 (length l)).
Proof. destruct l as [|a [|b [|c l]]]; unfold unpack2; by intros [= <-]. Qed.

Lemma count_char_app c a b :
  count_char c (a ++ b) = count_char c a + count_char c b.
Proof. induction a as [|x a IH]; simpl; [done|]. rewrite IH. lia. Qed.

Lemma owner_name_one_separator s owner name :
  Spec.owner_name s owner name -> count_char "/" s = 1.
Proof.
  intros (-> & Ho & Hn). rewrite !count_char_app, Ho, Hn. reflexivity.
Qed.

Lemma lookup_path_cons key path v x :
  Spec.lookup_path (key :: path) v = Some x ->
  exists d y, v = VDict d /\ d !! key = Some y /\ Spec.lookup_path path y = Some x.
Proof.
  destruct v; try done. cbn [Spec.lookup_path].
  destruct (d !! key) as [y|] eqn:E; [|done]. intros H. by exists d, y.
Qed.

Lemma lookup_path_nil v x : Spec.lookup_path [] v = Some x -> x = v.
Proof. by intros [= ->]. Qed.

Lemma unset_or_empty environ :
  environ !! "GITHUB_REPOSITORY" = None \/ environ !! "GITHUB_REPOSITORY" = Some "" ->
  truthy (os_getenv environ "GITHUB_REPOSITORY") = false.
Proof. unfold os_getenv. by intros [->| ->]. Qed.

(** With a non-empty variable the payload is not consulted. *)
Lemma repo_from_environ environ self s :
  environ !! "GITHUB_REPOSITORY" = Some s -> s <> "" ->
  Context.repo environ self =
  '(owner, name) ← unpack2 (split "/" s);
  Ok (Spec.repo_dict (VStr owner) (VStr name)).
Proof.
  unfold Context.repo, os_getenv. intros -> Hs.
  destruct s as [|c s]; [done|]. reflexivity.
Qed.

Lemma repo_without_key environ self :
  truthy (os_getenv environ "GITHUB_REPOSITORY") = false ->
  py_in "repository" (Context.payload self) = Ok false ->
  Context.repo environ self = Raise Context.repo_error.
Proof. unfold Context.repo. by intros -> ->. Qed.

Lemma repo_from_payload environ self login name :
  truthy (os_getenv environ "GITHUB_REPOSITORY") = false ->
  Spec.lookup_path ["repository"; "owner"; "login"] (Context.payload self) = Some login ->
  Spec.lookup_path ["repository"; "name"] (Context.payload self) = Some name ->
  Context.repo environ self = Ok (Spec.repo_dict login name).
Proof.
  unfold Context.repo. intros -> Hl Hn.
  apply lookup_path_cons in Hl as (d & r & Hp & Hr & Hl).
  apply lookup_path_cons in Hl as (rd & o & -> & Ho & Hl).
  apply lookup_path_cons in Hl as (od & l & -> & Hlogin & ->%lookup_path_nil).
  apply lookup_path_cons in Hn as (d' & r' & Hp' & Hr' & Hn).
  apply lookup_path_cons in Hn as (rd' & n & -> & Hname & ->%lookup_path_nil).
  rewrite Hp in *. injection Hp' as <-. rewrite Hr in Hr'. injection Hr' as <-.
  unfold py_in. rewrite bool_decide_eq_true_2 by (rewrite Hr; eauto).
  rewrite bind_Ok.
  rewrite (py_getitem_dict _ _ _ Hr), bind_Ok.
  rewrite (py_getitem_dict _ _ _ Ho), bind_Ok.
  rewrite (py_getitem_dict _ _ _ Hlogin), !bind_Ok.
  by rewrite (py_getitem_dict _ _ _ Hname), bind_Ok.
Qed.

(** The explicit [raise] is reached only through the last [else]. *)
Lemma repo_error_inv environ self :
  Context.repo environ self = Raise Context.repo_error ->
  truthy (os_getenv environ "GITHUB_REPOSITORY") = false /\
  py_in "repository" (Context.payload self) = Ok false.
Proof.
  unfold Context.repo.
  destruct (truthy (os_getenv environ "GITHUB_REPOSITORY")).
  - destruct (unpack2 _) as [[o n]|e] eqn:E; [done|].
    apply unpack2_raise in E as ->. done.
  - destruct (py_in "repository" (Context.payload self)) as [[|]|e] eqn:Hin;
      [|done|].
    + rewrite bind_Ok.
      repeat first
        [ rewrite bind_Ok
        | match goal with
          | |- context [py_getitem ?v ?k] =>
              let E := fresh "E" in
              destruct (py_getitem v k) eqn:E;
              [|rewrite bind_Raise; apply py_getitem_raise in E as [->| ->]; done]
          end ].
      done.
    + rewrite bind_Raise. destruct (Context.payload self); try done.
      all: unfold py_in in Hin; injection Hin as <-; done.
Qed.

Lemma py_in_false_no_key v :
  py_in "repository" v = Ok false -> Spec.lookup_path ["repository"] v = None.
Proof.
  destruct v; try done. unfold py_in. intros [= H%bool_decide_eq_false].
  cbn [Spec.lookup_path]. destruct (d !! "repository"); [|done].
  destruct H. eauto.
Qed.

End Repo.

Section RepoClaims.

Implicit Types (environ : gmap string string) (self d : gmap string value).

(** C3 as stated fails: with [GITHUB_REPOSITORY=noslash], which is not
    OWNER/NAME-formatted, and a payload that has [repository.owner.login]
    and [repository.name], the rule takes the payload; the code unpacks
    the one-element split and raises. *)
Lemma repo_rule_counterexample :
  let environ : gmap string string := {["GITHUB_REPOSITORY" := "noslash"]} in
  Context.repo environ (Sample.instance Sample.octocat_payload)
    = Raise (ValueError (Unpack 2 1)) /\
  ~ Spec.repo_rule environ Sample.octocat_payload
      (Context.repo environ (Sample.instance Sample.octocat_payload)).
Proof.
  intros environ. split; [reflexivity|]. intros [_ Hrule].
  destruct Hrule as [Hpayload _].
  - intros s owner name Hs Hformat. apply lookup_singleton_Some in Hs as [_ <-].
    by apply owner_name_one_separator in Hformat.
  - by specialize (Hpayload (VStr "octocat") (VStr "Hello-World") eq_refl eq_refl).
Qed.

(** C3, amended: an OWNER/NAME-formatted [GITHUB_REPOSITORY] gives
    [{owner: OWNER, repo: NAME}] whatever the payload; when the variable is
    unset or empty, a payload with [repository.owner.login] and
    [repository.name] gives these two, and a payload object without a
    [repository] key raises the configuration error. *)
Theorem repo_sources environ self :
  (forall s owner name,
     environ !! "GITHUB_REPOSITORY" = Some s -> Spec.owner_name s owner name ->
     Context.repo environ self = Ok (Spec.repo_dict (VStr owner) (VStr name))) /\
  (environ !! "GITHUB_REPOSITORY" = None \/ environ !! "GITHUB_REPOSITORY" = Some "" ->
   (forall login name,
      Spec.lookup_path ["repository"; "owner"; "login"] (Context.payload self)
        = Some login ->
      Spec.lookup_path ["repository"; "name"] (Context.payload self) = Some name ->
      Context.repo environ self = Ok (Spec.repo_dict login name)) /\
   (forall d, Context.payload self = VDict d -> d !! "repository" = None ->
      Context.repo environ self = Raise Context.repo_error)).
Proof.
  split; [|intros Henv%unset_or_empty; split].
  - intros s owner name Hs Hformat.
    rewrite (repo_from_environ _ _ _ Hs).
    + by rewrite (split_owner_name _ _ _ Hformat).
    + intros ->. by apply owner_name_nonempty in Hformat.
  - intros login name. by apply repo_from_payload.
  - intros d Hp Hd. apply repo_without_key; [done|].
    rewrite Hp. unfold py_in. rewrite bool_decide_eq_false_2; [done|].
    rewrite Hd. by intros [? ?].
Qed.

(** C10: a non-empty [GITHUB_REPOSITORY] without exactly one ['/'] makes
    [repo] raise the unpacking error, which is not the configuration
    error; the configuration error is raised only when the variable is
    unset or empty and the payload has no [repository] key. *)
Theorem repo_unpack_error environ self :
  (forall s,
     environ !! "GITHUB_REPOSITORY" = Some s -> s <> "" -> count_char "/" s <> 1 ->
     Context.repo environ self
       = Raise (ValueError (Unpack 2 (S (count_char "/" s)))) /\
     Context.repo environ self <> Raise Context.repo_error) /\
  (Context.repo environ self = Raise Context.repo_error ->
   (environ !! "GITHUB_REPOSITORY" = None \/
    environ !! "GITHUB_REPOSITORY" = Some "") /\
   py_in "repository" (Context.payload self) = Ok false /\
   Spec.lookup_path ["repository"] (Context.payload self) = None).
Proof.
  split.
  - intros s Hs Hne Hcount.
    assert (Context.repo environ self
            = Raise (ValueError (Unpack 2 (S (count_char "/" s))))) as E.
    { rewrite (repo_from_environ _ _ _ Hs Hne), unpack2_length.
      - by rewrite split_length.
      - rewrite split_length. lia. }
    split; [done|]. by rewrite E.
  - intros (Henv & Hin)%repo_error_inv. split; [|split].
    + unfold os_getenv in Henv.
      destruct (environ !! "GITHUB_REPOSITORY") as [[|c s]|]; auto. done.
    + done.
    + by apply py_in_false_no_key.
Qed.

End RepoClaims.

Lemma repo_sources_witness :
  Context.repo {["GITHUB_REPOSITORY" := "octocat/Hello-World"]}
    (Sample.instance Sample.null_issue)
  = Ok (Spec.repo_dict (VStr "octocat") (VStr "Hello-World")) /\
  Context.repo ∅ (Sample.instance Sample.octocat_payload)
  = Ok (Spec.repo_dict (VStr "octocat") (VStr "Hello-World")) /\
  Context.repo ∅ (Sample.instance Sample.null_issue) = Raise Context.repo_error.
Proof.
  split; [|split].
  - apply (proj1 (repo_sources {["GITHUB_REPOSITORY" := "octocat/Hello-World"]}
                    (Sample.instance Sample.null_issue))
             "octocat/Hello-World" "octocat" "Hello-World");
      [reflexivity|repeat split].
  - refine (proj1 (proj2 (repo_sources ∅ (Sample.instance Sample.octocat_payload)) _)
              _ _ _ _); [left|..]; reflexivity.
  - refine (proj2 (proj2 (repo_sources ∅ (Sample.instance Sample.null_issue)) _)
              {["issue" := VNone]} _ _); [left|..]; reflexivity.
Defined.

Lemma repo_unpack_error_witness :
  Context.repo {["GITHUB_REPOSITORY" := "a/b/c"]} ∅
    = Raise (ValueError (Unpack 2 3)) /\
  Context.repo {["GITHUB_REPOSITORY" := "a/b/c"]} ∅ <> Raise Context.repo_error.
Proof.
  apply (proj1 (repo_unpack_error {["GITHUB_REPOSITORY" := "a/b/c"]} ∅) "a/b/c");
    [reflexivity|discriminate|vm_compute; lia].
Defined.

(** ** The property issue *)

Section IssueClaims.

Implicit Types (environ : gmap string string) (self d : gmap string value).

Lemma issue_number_dict d :
  Context.issue_number (VDict d) =
  py_get (dict_get d "issue" (dict_get d "pull_request" (VDict d))) "number" VNone.
Proof. reflexivity. Qed.


(** No [Event] is ever built: the base of its class statement is unbound,
    so [issue] raises on every context. *)
Lemma Event_new_raises kwargs : Event.new kwargs = Raise (NameError "NestedDict").
Proof. reflexivity. Qed.

Lemma issue_raises environ self : raises (Context.issue environ self).
Proof.
  unfold raises, Context.issue.
  destruct (Context.issue_number _); [rewrite bind_Ok|by eexists].
  destruct (Context.repo environ self) as [[]|]; by eexists.
Qed.





End IssueClaims.



(** * Further properties of the code *)

(** ** DotDict: writes, deletions and histories *)

Section DotDictMore.

Import DotDict.

Implicit Types (self : gmap string value) (key item : string).

Lemma step_untouched self key o :
  ~ Behaviour.touches key o -> step self o !! key = self !! key.
Proof.
  destruct o as [k v|k]; simpl; intros Hk.
  - unfold __setattr__. by rewrite lookup_insert_ne.
  - unfold __delattr__. case_bool_decide; [|done]. by rewrite lookup_delete_ne.
Qed.

Lemma run_untouched ops self key :
  Forall (fun o => ~ Behaviour.touches key o) ops -> run ops self !! key = self !! key.
Proof.
  unfold run. revert self.
  induction ops as [|o ops IH]; intros self Hops; simpl; [done|].
  inversion Hops; subst. by rewrite IH, step_untouched.
Qed.

Lemma run_app ops1 ops2 self : run (ops1 ++ ops2) self = run ops2 (run ops1 self).
Proof. apply foldl_app. Qed.

Lemma run_cons o ops self : run (o :: ops) self = run ops (step self o).
Proof. reflexivity. Qed.

Lemma getattr_lookup_eq (m1 m2 : gmap string value) key :
  m1 !! key = m2 !! key -> __getattr__ m1 key = __getattr__ m2 key.
Proof. unfold __getattr__, dict_get. by intros ->. Qed.

(** X1: a value that is not a mapping, written with [__setattr__], is read
    back unchanged by [__getattr__] under the same key. *)
Theorem setattr_then_getattr self key v :
  isinstance_dict v = false -> __getattr__ (__setattr__ self key v) key = Ok v.
Proof. intros Hv. apply getattr_plain; [apply setattr_lookup|done]. Qed.

(** X2: [__setattr__] writes one key only: every other attribute reads as
    before. *)
Theorem setattr_keeps_other_keys self key other v :
  other <> key ->
  __getattr__ (__setattr__ self key v) other = __getattr__ self other.
Proof.
  intros Hne. apply getattr_lookup_eq. unfold __setattr__.
  by rewrite lookup_insert_ne.
Qed.

(** X3: after [__delattr__] the key is gone, present before or not, and reads
    as [None]; the other keys are kept; on a mapping without the key the
    mapping is returned as it is. *)
Theorem delattr_removes_key self item :
  __delattr__ self item !! item = None /\
  __getattr__ (__delattr__ self item) item = Ok VNone /\
  (forall other, other <> item -> __delattr__ self item !! other = self !! other) /\
  (self !! item = None -> __delattr__ self item = self).
Proof.
  assert (__delattr__ self item !! item = None) as Hgone.
  { unfold __delattr__. case_bool_decide as Hin; [apply lookup_delete_eq|].
    destruct (self !! item) eqn:E; [|done]. destruct Hin. eauto. }
  split; [done|]. split; [|split].
  - unfold __getattr__, dict_get. by rewrite Hgone.
  - intros other Hne. unfold __delattr__. case_bool_decide; [|done].
    by rewrite lookup_delete_ne.
  - intros Habs. unfold __delattr__. rewrite bool_decide_eq_false_2; [done|].
    rewrite Habs. by intros [? ?].
Qed.

(** X4: writing a key that the mapping does not have and deleting it again
    gives back the mapping. *)
Theorem setattr_then_delattr self key v :
  self !! key = None -> __delattr__ (__setattr__ self key v) key = self.
Proof.
  intros Habs. unfold __delattr__, __setattr__.
  rewrite bool_decide_eq_true_2 by (rewrite lookup_insert_eq; eauto).
  by apply delete_insert_id.
Qed.

(** X5: in a history of writes and deletions the last operation on a key
    decides: after a last write of [v] the key holds [v], after a last
    deletion the key is absent, whatever came before. *)
Theorem history_last_operation_wins before after self key :
  Forall (fun o => ~ Behaviour.touches key o) after ->
  (forall v, run (before ++ SetAttr key v :: after) self !! key = Some v) /\
  run (before ++ DelAttr key :: after) self !! key = None.
Proof.
  intros Hafter. split; [intros v|].
  - rewrite run_app, run_cons, run_untouched by done. apply setattr_lookup.
  - rewrite run_app, run_cons, run_untouched by done. apply delattr_removes_key.
Qed.

End DotDictMore.

Lemma setattr_then_getattr_witness :
  DotDict.__getattr__ (DotDict.__setattr__ ∅ "sha" (VStr "abc123")) "sha"
  = Ok (VStr "abc123").
Proof. apply (setattr_then_getattr ∅ "sha" (VStr "abc123")). reflexivity. Defined.

Lemma setattr_keeps_other_keys_witness :
  DotDict.__getattr__ (DotDict.__setattr__ {["ref" := VStr "main"]} "sha" (VInt 1)) "ref"
  = DotDict.__getattr__ {["ref" := VStr "main"]} "ref".
Proof.
  apply (setattr_keeps_other_keys {["ref" := VStr "main"]} "sha" "ref" (VInt 1)).
  discriminate.
Defined.

Lemma delattr_removes_key_witness :
  DotDict.__delattr__ (∅ : gmap string value) "sha" = ∅.
Proof. apply (delattr_removes_key ∅ "sha"). reflexivity. Defined.

Lemma setattr_then_delattr_witness :
  DotDict.__delattr__ (DotDict.__setattr__ {["ref" := VStr "main"]} "sha" (VInt 1)) "sha"
  = {["ref" := VStr "main"]}.
Proof.
  apply (setattr_then_delattr {["ref" := VStr "main"]} "sha" (VInt 1)). reflexivity.
Defined.

Lemma history_last_operation_wins_witness :
  DotDict.run ([DotDict.DelAttr "sha"] ++
               DotDict.SetAttr "sha" (VInt 2) :: [DotDict.SetAttr "ref" VNone]) ∅
    !! "sha" = Some (VInt 2).
Proof.
  apply (history_last_operation_wins [DotDict.DelAttr "sha"]
           [DotDict.SetAttr "ref" VNone] ∅ "sha").
  repeat constructor. simpl. discriminate.
Defined.

(** ** Context: what construction reads *)






Section ConstructionMore.

Variable json_loads : string -> option value.

Implicit Types (environ : gmap string string) (fs : gmap string fs_node)
  (self : gmap string value).

(** X6: construction reads the environment through [GITHUB_EVENT_PATH]
    only: two environments that agree on that variable construct the same
    instance (or raise the same error), and a constructed instance owns
    exactly one attribute, [payload]. *)
Theorem construction_reads_event_path_only environ1 environ2 fs :
  environ1 !! "GITHUB_EVENT_PATH" = environ2 !! "GITHUB_EVENT_PATH" ->
  Context.new json_loads environ1 fs = Context.new json_loads environ2 fs /\
  forall self, Context.new json_loads environ1 fs = Ok self ->
               exists p, self = {["payload" := p]}.
Proof.
  intros Heq. rewrite !new_unfold.
  assert (Context._get_payload json_loads environ1 fs
          = Context._get_payload json_loads environ2 fs) as ->.
  { unfold Context._get_payload, os_getenv. by rewrite Heq. }
  split; [done|]. intros self.
  destruct (Context._get_payload json_loads environ2 fs) as [p|]; [|done].
  rewrite bind_Ok. intros [= <-]. by exists p.
Qed.

(** X7: an empty [GITHUB_EVENT_PATH] counts as unset, whatever the file
    system holds: construction succeeds with the empty payload; a path
    that names a directory passes the existence test and construction
    raises [IsADirectoryError]. *)
Theorem event_path_edge_cases environ fs :
  (environ !! "GITHUB_EVENT_PATH" = Some "" ->
   Context.new json_loads environ fs = Ok {["payload" := VDict ∅]}) /\
  (forall path,
     environ !! "GITHUB_EVENT_PATH" = Some path -> path <> "" ->
     fs !! path = Some Directory ->
     Context.new json_loads environ fs = Raise IsADirectoryError).
Proof.
  split.
  - intros He. rewrite new_unfold. unfold Context._get_payload, os_getenv.
    by rewrite He.
  - intros path He Hne Hdir. rewrite new_unfold.
    unfold Context._get_payload, os_getenv, read_text. rewrite He.
    destruct path as [|c path]; [done|].
    cbn [truthy default from_option id os_path_exists andb].
    rewrite bool_decide_eq_true_2 by (rewrite Hdir; eauto). by rewrite Hdir.
Qed.


End ConstructionMore.

Lemma construction_reads_event_path_only_witness :
  Context.new json_loads_sample {["GITHUB_RUN_ID" := "42"]} ∅
  = Context.new json_loads_sample {["GITHUB_SHA" := "abc123"]} ∅.
Proof.
  apply (construction_reads_event_path_only json_loads_sample
           {["GITHUB_RUN_ID" := "42"]} {["GITHUB_SHA" := "abc123"]} ∅).
  reflexivity.
Defined.

Lemma event_path_edge_cases_witness :
  Context.new json_loads_sample {["GITHUB_EVENT_PATH" := "/tmp"]} {["/tmp" := Directory]}
  = Raise IsADirectoryError.
Proof.
  apply (proj2 (event_path_edge_cases json_loads_sample
                  {["GITHUB_EVENT_PATH" := "/tmp"]} {["/tmp" := Directory]}) "/tmp");
    [reflexivity|discriminate|reflexivity].
Defined.


(** ** repo and issue: results and errors *)

Lemma split_one_inv sep s b : split sep s = [b] -> b = s /\ count_char sep s = 0.
Proof.
  intros Hs. assert (count_char sep s = 0) as Hc.
  { pose proof (split_length sep s) as Hl. rewrite Hs in Hl. simpl in Hl. lia. }
  rewrite (split_no_separator _ _ Hc) in Hs. by injection Hs as <-.
Qed.

Lemma split_two_inv sep s a b :
  split sep s = [a; b] ->
  s = a ++ String sep b /\ count_char sep a = 0 /\ count_char sep b = 0.
Proof.
  revert a. induction s as [|c s IH]; intros a; simpl; [done|].
  case_bool_decide as Hc.
  - intros [= <- [-> Hb]%split_one_inv]. by subst.
  - destruct (split sep s) as [|hd tl] eqn:E; [done|].
    intros [= <- ->]. destruct (IH hd eq_refl) as (-> & Ha & Hb).
    simpl. by rewrite bool_decide_eq_false_2, Ha.
Qed.

Lemma py_getitem_missing (d : gmap string value) key :
  d !! key = None -> py_getitem (VDict d) key = Raise (KeyError key).
Proof. unfold py_getitem. by intros ->. Qed.

Section RepoMore.

Implicit Types (environ : gmap string string) (self d : gmap string value).

(** X9: with a non-empty [GITHUB_REPOSITORY], [repo] returns only for an
    OWNER/NAME-formatted value, and what it returns is the pair of the two
    parts, as strings: the payload cannot change or rescue the result. *)
Theorem repo_from_environ_only_formatted environ self s v :
  environ !! "GITHUB_REPOSITORY" = Some s -> s <> "" ->
  Context.repo environ self = Ok v ->
  exists owner name,
    Spec.owner_name s owner name /\ v = Spec.repo_dict (VStr owner) (VStr name).
Proof.
  intros Hs Hne. rewrite (repo_from_environ _ _ _ Hs Hne).
  destruct (split "/" s) as [|owner [|name [|x l]]] eqn:E; cbn [unpack2];
    rewrite ?bind_Ok, ?bind_Raise; try done.
  intros [= <-]. exists owner, name. split; [|done].
  by apply split_two_inv in E.
Qed.

(** X10: [repo] raises nothing but the unpacking error (for a number of
    parts other than two), the configuration error, a [TypeError], or a
    [KeyError] for one of the keys [owner], [login], [name]. *)
Theorem repo_raises_only environ self e :
  Context.repo environ self = Raise e ->
  (exists parts, parts <> 2 /\ e = ValueError (Unpack 2 parts)) \/
  e = Context.repo_error \/ e = TypeError \/
  e = KeyError "owner" \/ e = KeyError "login" \/ e = KeyError "name".
Proof.
  unfold Context.repo.
  destruct (truthy (os_getenv environ "GITHUB_REPOSITORY")).
  - destruct (split "/" _) as [|a [|b [|c l]]]; cbn [unpack2 length];
      rewrite ?bind_Ok, ?bind_Raise; try done; intros [= <-]; left;
      eexists; (split; [|reflexivity]); lia.
  - destruct (Context.payload self) as [| | | | |l|d|] eqn:Hp; cbn [py_in];
      rewrite ?bind_Ok, ?bind_Raise; try (intros [= <-]; tauto).
    + destruct (substring_of _ _); cbn [py_getitem]; rewrite ?bind_Raise;
        intros [= <-]; tauto.
    + destruct (existsb _ _); cbn [py_getitem]; rewrite ?bind_Raise;
        intros [= <-]; tauto.
    + case_bool_decide as Hin; [|intros [= <-]; tauto].
      destruct Hin as [r Hr]. rewrite (py_getitem_dict _ _ _ Hr), bind_Ok.
      destruct (py_getitem r "owner") as [o|eo] eqn:Eo.
      2:{ rewrite bind_Raise. intros [= <-].
          apply py_getitem_raise in Eo as [->| ->]; tauto. }
      rewrite bind_Ok.
      destruct (py_getitem o "login") as [l|el] eqn:El.
      2:{ rewrite bind_Raise. intros [= <-].
          apply py_getitem_raise in El as [->| ->]; tauto. }
      rewrite !bind_Ok.
      destruct (py_getitem r "name") as [n|en] eqn:En; [done|].
      rewrite bind_Raise. intros [= <-].
      apply py_getitem_raise in En as [->| ->]; tauto.
Qed.

(** X11: a payload with a [repository] object that lacks an entry does not
    fall back to the configuration error: without [owner] the read raises
    [KeyError] for [owner], without [owner.login] for [login], and with
    both but without [name] for [name]. *)
Theorem repo_incomplete_repository environ self d r :
  environ !! "GITHUB_REPOSITORY" = None \/ environ !! "GITHUB_REPOSITORY" = Some "" ->
  Context.payload self = VDict d -> d !! "repository" = Some (VDict r) ->
  (r !! "owner" = None -> Context.repo environ self = Raise (KeyError "owner")) /\
  (forall o, r !! "owner" = Some (VDict o) -> o !! "login" = None ->
             Context.repo environ self = Raise (KeyError "login")) /\
  (forall o login, r !! "owner" = Some (VDict o) -> o !! "login" = Some login ->
                   r !! "name" = None ->
                   Context.repo environ self = Raise (KeyError "name")).
Proof.
  intros Henv%unset_or_empty Hp Hr. unfold Context.repo. rewrite Henv, Hp.
  cbn [py_in]. rewrite bool_decide_eq_true_2 by (rewrite Hr; eauto).
  rewrite bind_Ok, (py_getitem_dict _ _ _ Hr), bind_Ok.
  split; [|split].
  - intros Ho. by rewrite (py_getitem_missing _ _ Ho).
  - intros o Ho Hl. rewrite (py_getitem_dict _ _ _ Ho), bind_Ok.
    by rewrite (py_getitem_missing _ _ Hl).
  - intros o login Ho Hl Hn. rewrite (py_getitem_dict _ _ _ Ho), bind_Ok.
    rewrite (py_getitem_dict _ _ _ Hl), !bind_Ok.
    by rewrite (py_getitem_missing _ _ Hn).
Qed.

(** X12: with no usable [GITHUB_REPOSITORY], a payload that is a JSON
    scalar other than a string makes [repo] raise [TypeError] (the
    membership test fails); a payload that is a JSON array raises the
    configuration error unless the array contains the string
    ["repository"], in which case the subscript raises [TypeError]. *)
Theorem repo_payload_not_object environ self :
  environ !! "GITHUB_REPOSITORY" = None \/ environ !! "GITHUB_REPOSITORY" = Some "" ->
  (Behaviour.is_scalar (Context.payload self) = true ->
   Context.repo environ self = Raise TypeError) /\
  (forall l, Context.payload self = VList l ->
     Context.repo environ self =
     Raise (if existsb (is_str "repository") l then TypeError
            else Context.repo_error)).
Proof.
  intros Henv%unset_or_empty. unfold Context.repo. rewrite Henv. split.
  - by destruct (Context.payload self).
  - intros l ->. cbn [py_in]. rewrite bind_Ok. by destruct (existsb _ _).
Qed.

(** X13: the number lookup of [issue] comes first and needs objects: when
    the payload is not an object, or its [issue] entry is not an object,
    or it has no [issue] entry and its [pull_request] entry is not an
    object, [issue] raises an attribute error whatever the environment
    says about the repository. *)
Theorem issue_needs_objects environ self :
  (isinstance_dict (Context.payload self) = false ->
   Context.issue environ self = Raise (AttributeError "get")) /\
  (forall d entry,
     Context.payload self = VDict d -> isinstance_dict entry = false ->
     d !! "issue" = Some entry \/
     (d !! "issue" = None /\ d !! "pull_request" = Some entry) ->
     Context.issue environ self = Raise (AttributeError "get")).
Proof.
  unfold Context.issue. split.
  - by destruct (Context.payload self).
  - intros d entry -> Hentry Hsel. rewrite issue_number_dict.
    assert (dict_get d "issue" (dict_get d "pull_request" (VDict d)) = entry) as ->.
    { unfold dict_get. by destruct Hsel as [->|[-> ->]]. }
    by destruct entry.
Qed.


End RepoMore.

Lemma repo_from_environ_only_formatted_witness :
  exists owner name,
    Spec.owner_name "octocat/Hello-World" owner name /\
    Spec.repo_dict (VStr "octocat") (VStr "Hello-World")
    = Spec.repo_dict (VStr owner) (VStr name).
Proof.
  apply (repo_from_environ_only_formatted
           {["GITHUB_REPOSITORY" := "octocat/Hello-World"]} ∅ "octocat/Hello-World");
    [reflexivity|discriminate|reflexivity].
Defined.

Lemma repo_raises_only_witness :
  (exists parts, parts <> 2 /\ ValueError (Unpack 2 1) = ValueError (Unpack 2 parts)) \/
  ValueError (Unpack 2 1) = Context.repo_error \/ ValueError (Unpack 2 1) = TypeError \/
  ValueError (Unpack 2 1) = KeyError "owner" \/
  ValueError (Unpack 2 1) = KeyError "login" \/ ValueError (Unpack 2 1) = KeyError "name".
Proof.
  apply (repo_raises_only {["GITHUB_REPOSITORY" := "noslash"]} ∅). reflexivity.
Defined.

Lemma repo_incomplete_repository_witness :
  Context.repo ∅ (Sample.instance (VDict {["repository" := VDict ∅]}))
  = Raise (KeyError "owner").
Proof.
  refine (proj1 (repo_incomplete_repository ∅
                   (Sample.instance (VDict {["repository" := VDict ∅]}))
                   {["repository" := VDict ∅]} ∅ _ _ _) _);
    [left|..]; reflexivity.
Defined.

Lemma repo_payload_not_object_witness :
  Context.repo ∅ (Sample.instance VNone) = Raise TypeError /\
  Context.repo ∅ (Sample.instance (VList [VStr "repository"])) = Raise TypeError.
Proof.
  split.
  - refine (proj1 (repo_payload_not_object ∅ (Sample.instance VNone) _) _);
      [left|]; reflexivity.
  - refine (proj2 (repo_payload_not_object ∅
                     (Sample.instance (VList [VStr "repository"])) _)
              [VStr "repository"] _); [left|]; reflexivity.
Defined.

Lemma issue_needs_objects_witness :
  Context.issue {["GITHUB_REPOSITORY" := "octocat/Hello-World"]}
    (Sample.instance Sample.null_issue) = Raise (AttributeError "get").
Proof.
  refine (proj2 (issue_needs_objects {["GITHUB_REPOSITORY" := "octocat/Hello-World"]}
                   (Sample.instance Sample.null_issue))
            {["issue" := VNone]} VNone _ _ _); [reflexivity..|left; reflexivity].
Defined.

